(** * go-builder: target resolution and build-job construction

    A shallow embedding of [main.go]: the target filter
    ([getTargetBuilds]), the toolchain inspector ([getBuildOptions]), the
    filter-string parser ([parseStringToOSARCH]), the project-name
    resolver ([getProjectName]), the construction of the build
    subprocess ([Build]) and the sequential part of [main], from the
    [-target] callback to the loop that starts the build jobs.

    Go strings are byte strings: they are modelled by [string], whose
    characters are the 256 values of [ascii].  A Go result pair
    [(T, error)] is a pair [T * option error], [None] being [nil]. *)

From Stdlib Require Import List String Ascii Bool Arith NArith Lia.
Import ListNotations.

Open Scope string_scope.
Open Scope list_scope.

(** ** Go's built-in loops and slices *)

(** A [for _, x := range xs { acc = body acc x }] loop. *)
Definition for_range {A B : Type} (xs : list A) (acc : B) (body : B -> A -> B) : B :=
  fold_left body xs acc.

(** [append(s, x)] on a slice. *)
Definition append {A : Type} (s : list A) (x : A) : list A := s ++ [x].

(** [s[i]] on a slice of strings whose length has been checked. *)
Definition elem (s : list string) (i : nat) : string := nth i s "".

(** ** Package [strings] *)

Module strings.

(** [Count(s, sep)] for a separator of one byte. *)
Fixpoint Count (s : string) (sep : ascii) : nat :=
  match s with
  | EmptyString => 0
  | String c s' => (if Ascii.eqb c sep then 1 else 0) + Count s' sep
  end.

(** [Split(s, sep)] for a separator of one byte: [s] is cut at every
    occurrence of [sep], first occurrence first, and the remainder is
    the last element; the result has [Count(s, sep) + 1] elements. *)
Fixpoint Split (s : string) (sep : ascii) : list string :=
  match s with
  | EmptyString => [EmptyString]
  | String c s' =>
      if Ascii.eqb c sep then EmptyString :: Split s' sep
      else match Split s' sep with
           | head :: tail => String c head :: tail
           | [] => [String c EmptyString]
           end
  end.

(** [utf8.RuneSelf]: bytes below it are single-byte runes. *)
Definition RuneSelf : N := 128.

(** ['A' <= c && c <= 'Z'] *)
Definition isUpperByte (c : ascii) : bool :=
  (65 <=? N_of_ascii c)%N && (N_of_ascii c <=? 90)%N.

(** [c += 'a' - 'A'] on an upper-case byte, other bytes unchanged. *)
Definition lowerByte (c : ascii) : ascii :=
  if isUpperByte c then ascii_of_N (N_of_ascii c + 32) else c.

Fixpoint isASCII (s : string) : bool :=
  match s with
  | EmptyString => true
  | String c s' => (N_of_ascii c <? RuneSelf)%N && isASCII s'
  end.

Fixpoint hasUpper (s : string) : bool :=
  match s with
  | EmptyString => false
  | String c s' => isUpperByte c || hasUpper s'
  end.

Fixpoint lowerBytes (s : string) : string :=
  match s with
  | EmptyString => EmptyString
  | String c s' => String (lowerByte c) (lowerBytes s')
  end.

(** [ToLower(s)]: a string of ASCII bytes is lower-cased byte by byte
    (and returned as it is when it has no upper-case byte); any other
    string goes through [Map(unicode.ToLower, s)], which depends on
    the Unicode case tables and is the parameter [unicodeLower]. *)
Definition ToLower (unicodeLower : string -> string) (s : string) : string :=
  if isASCII s then
    if hasUpper s then lowerBytes s else s
  else unicodeLower s.

End strings.

(** ** Package [path/filepath], on a Unix target

    The separator is ['/'] and [VolumeName] is always empty. *)

Module filepath.

Definition Separator : ascii := "/"%char.

Definition IsPathSeparator (c : ascii) : bool := Ascii.eqb c Separator.

Fixpoint dropWhile (p : ascii -> bool) (l : list ascii) : list ascii :=
  match l with
  | [] => []
  | c :: l' => if p c then dropWhile p l' else l
  end.

Fixpoint takeWhile (p : ascii -> bool) (l : list ascii) : list ascii :=
  match l with
  | [] => []
  | c :: l' => if p c then c :: takeWhile p l' else []
  end.

(** [Base(path)].  Both loops of the source walk backwards from the
    last byte, so they run here on the reversed bytes of [path]. *)
Definition Base (path : string) : string :=
  if (path =? "")%string then "."
  else
    let rpath := rev (list_ascii_of_string path) in
    (* Strip trailing slashes. *)
    let rpath := dropWhile IsPathSeparator rpath in
    (* Find the last element. *)
    let rpath := takeWhile (fun c => negb (IsPathSeparator c)) rpath in
    let path := string_of_list_ascii (rev rpath) in
    (* If empty now, it had only slashes. *)
    if (path =? "")%string then String Separator EmptyString
    else path.

End filepath.

(** A path made of separators only, as a decidable predicate. *)
Fixpoint only_separators (s : string) : bool :=
  match s with
  | EmptyString => true
  | String c s' => filepath.IsPathSeparator c && only_separators s'
  end.

(** ** Package [os/exec]: the fields of [exec.Cmd] that the program sets *)

Record Cmd : Type := mkCmd {
  Path : string;
  Args : list string;
  Env : list string;
  Dir : string
}.

(** [exec.Command(name, arg...)] and [exec.CommandContext(ctx, name, arg...)]. *)
Definition Command (name : string) (arg : list string) : Cmd :=
  mkCmd name (name :: arg) [] "".

Definition set_Dir (cmd : Cmd) (dir : string) : Cmd :=
  mkCmd (Path cmd) (Args cmd) (Env cmd) dir.

Definition set_Env (cmd : Cmd) (env : list string) : Cmd :=
  mkCmd (Path cmd) (Args cmd) env (Dir cmd).

(** ** Data model *)

Inductive error : Type :=
| ErrInvalidOSARCH
| ErrUnsupportedTargetOSARCH
| ErrFailedBuildCommand
| Errorf_w (prefix : string) (err : error)
| ExternalError (msg : string).

Record OSARCH : Type := mkOSARCH { OS : string; ARCH : string }.

Definition NewOSARCH : OSARCH := mkOSARCH "" "".

Record GoDist : Type := mkGoDist {
  GOOS : string;
  GOARCH : string;
  CgoSupported : bool;
  FirstClass : bool
}.

Record BuildConfig : Type := mkBuildConfig {
  ProjectDir : string;
  OutputDir : string;
  BinaryName : string;
  Targets : list OSARCH
}.

(** ** Target filter *)

Definition getTargetBuilds (targets : list OSARCH) (allDists : list GoDist) : list GoDist :=
  if (List.length targets =? 0)%nat then allDists
  else
    let targetDists := [] in
    for_range targets targetDists (fun targetDists target =>
      for_range allDists targetDists (fun targetDists dist =>
        if (ARCH target =? "")%string then
          if (OS target =? GOOS dist)%string then append targetDists dist
          else targetDists
        else
          if (OS target =? GOOS dist)%string && (ARCH target =? GOARCH dist)%string
          then append targetDists dist
          else targetDists)).

(** The match rule of the specification, as a decidable predicate. *)
Definition matches (filter : OSARCH) (dist : GoDist) : bool :=
  if (ARCH filter =? "")%string then (OS filter =? GOOS dist)%string
  else (OS filter =? GOOS dist)%string && (ARCH filter =? GOARCH dist)%string.

(** The catalog of [main_test.go]. *)
Definition testingDists : list GoDist :=
  [ mkGoDist "windows" "x86" true true;
    mkGoDist "darwin" "arm64" true true;
    mkGoDist "linux" "x86" true true;
    mkGoDist "linux" "arm64" true true;
    mkGoDist "bsd" "arm64" true false ].

(** ** The environment of the process

    What the program obtains from the operating system and from library
    code that is not modelled: the Unicode lower-casing of a string that
    is not pure ASCII, [filepath.Join], [os.Environ], [os.Getwd], the
    run of a subprocess by [Cmd.Output] and [json.Unmarshal] into a
    [[]GoDist]. *)

Section Program.

#[local] Set Default Proof Using "Type".

Variable unicode_ToLower : string -> string.
Variable filepath_Join : list string -> string.
Variable os_Environ : list string.
Variable os_Getwd : string * option error.
Variable cmd_Output : Cmd -> string * option error.
Variable json_Unmarshal : string -> list GoDist * option error.

(** Lower-casing a rune never produces or removes a ['/']: the UTF-8
    encoding of a rune above [RuneSelf] has no byte below it, and no
    rune but ['/'] itself has ['/'] as its lower case. *)
Hypothesis unicode_ToLower_separators :
  forall s, strings.isASCII s = false ->
    strings.Count (unicode_ToLower s) "/"%char = strings.Count s "/"%char.

(** ** Toolchain inspector *)

Definition getBuildOptions (targets : list OSARCH) : list GoDist * option error :=
  let cmd := Command "go" ["tool"; "dist"; "list"; "-json"] in
  let '(rawJson, err) := cmd_Output cmd in
  match err with
  | Some err => ([], Some (Errorf_w "dist: " err))
  | None =>
      let '(supportedDists, err) := json_Unmarshal rawJson in
      match err with
      | Some err => ([], Some (Errorf_w "json parse: " err))
      | None =>
          if (List.length targets =? 0)%nat then (supportedDists, None)
          else
            let targetDists := getTargetBuilds targets supportedDists in
            if (0 <? List.length targetDists)%nat then (targetDists, None)
            else ([], Some ErrUnsupportedTargetOSARCH)
      end
  end.

(** ** Build job *)

Definition GOOSEnv (d : GoDist) : string := ("GOOS=" ++ GOOS d)%string.

Definition GOARCHEnv (d : GoDist) : string := ("GOARCH=" ++ GOARCH d)%string.

(** The first lines of [Build]: the output file name. *)
Definition Build_filename (config : BuildConfig) (dist : GoDist) : string :=
  let filename := (BinaryName config ++ "-" ++ GOOS dist ++ "_" ++ GOARCH dist)%string in
  if (GOOS dist =? "windows")%string || (GOOS dist =? "nt")%string
  then (filename ++ ".exe")%string
  else filename.

(** [Build] up to the run of the subprocess: the command it constructs. *)
Definition Build_cmd (config : BuildConfig) (dist : GoDist) : Cmd :=
  let filename := Build_filename config dist in
  let fp := filepath_Join [OutputDir config; filename] in
  let cmd := Command "go" ["build"; "-o"; fp; ProjectDir config] in
  let cmd := set_Dir cmd (ProjectDir config) in
  let cmd := set_Env cmd (append (append os_Environ (GOOSEnv dist)) (GOARCHEnv dist)) in
  cmd.

Definition Build (config : BuildConfig) (dist : GoDist) : string * option error :=
  let cmd := Build_cmd config dist in
  let '(res, err) := cmd_Output cmd in
  match err with
  | Some err => (res, Some err)
  | None => (res, None)
  end.

(** ** Filter-string parser *)

Definition parseStringToOSARCH (rawStr : string) : OSARCH * option error :=
  if (rawStr =? "")%string then (mkOSARCH "" "", Some ErrInvalidOSARCH)
  else
    let strLower := strings.ToLower unicode_ToLower rawStr in
    let splitStr := strings.Split strLower "/"%char in
    if (List.length splitStr =? 1)%nat then
      (mkOSARCH (elem splitStr 0) "", None)
    else if (List.length splitStr =? 2)%nat then
      (mkOSARCH (elem splitStr 0) (elem splitStr 1), None)
    else (mkOSARCH "" "", Some ErrInvalidOSARCH).

(** ** Project name *)

Definition getProjectName (projFp : string) : string * option error :=
  let err : option error := None in
  if (projFp =? ".")%string then
    let '(projFp, err) := os_Getwd in
    match err with
    | Some err => ("", Some err)
    | None => (filepath.Base projFp, err)
    end
  else (filepath.Base projFp, err).

(** ** Entry point

    [main] up to the loop that starts the build jobs.  The command line
    is taken as the [flag] package delivers it: the values of the
    [-target] occurrences in their order, the values of [-o] and [-n]
    and the positional arguments.  The verbose log lines are not
    modelled (they go to [io.Discard] or to standard output and decide
    nothing). *)

Definition NewConfig : BuildConfig :=
  mkBuildConfig "./" "./build" "build" [].

Definition newline : string := String "010"%char EmptyString.

(** The two slices that the [-target] callback closes over, and the
    lines it has written to standard error. *)
Record TargetFlags : Type := mkTargetFlags {
  targetOS : list OSARCH;
  targetOSRaw : list string;
  stderr : list string
}.

Definition targetOSARCHFunc (flags : TargetFlags) (v : string)
  : TargetFlags * option error :=
  let '(osarch, err) := parseStringToOSARCH v in
  match err with
  | Some ErrInvalidOSARCH =>
      (mkTargetFlags (targetOS flags) (targetOSRaw flags)
         (append (stderr flags)
            ("Unable to parse " ++ v ++ " to valid OS/ARCH" ++ newline)%string),
       None)
  | Some err => (flags, Some (Errorf_w "parse osarch: " err))
  | None =>
      (mkTargetFlags (append (targetOS flags) osarch)
         (append (targetOSRaw flags) v) (stderr flags),
       None)
  end.

(** [flag.Parse] on the [-target] occurrences: the callback runs on
    each value in turn, and parsing stops at the first error it
    returns. *)
Fixpoint flag_Parse_targets (flags : TargetFlags) (values : list string)
  : TargetFlags * option error :=
  match values with
  | [] => (flags, None)
  | v :: values' =>
      let '(flags', err) := targetOSARCHFunc flags v in
      match err with
      | Some err => (flags', Some err)
      | None => flag_Parse_targets flags' values'
      end
  end.

(** Whether the parser accepts a [-target] value, and the line written
    to standard error when it does not. *)
Definition valid_target (v : string) : bool :=
  match snd (parseStringToOSARCH v) with
  | None => true
  | Some _ => false
  end.

Definition unable_to_parse (v : string) : string :=
  ("Unable to parse " ++ v ++ " to valid OS/ARCH" ++ newline)%string.

(** How [main] leaves its sequential part: [flag.Parse] exits on an
    error of the callback, [log.Fatalln] exits with its operands, or
    the loop over [buildDists] is reached with [config]. *)
Inductive Outcome : Type :=
| FlagError (err : error)
| Fatal (operands : list string) (err : error)
| Dispatch (config : BuildConfig) (buildDists : list GoDist).

Definition main_plan (targets : list string) (outputDir binaryName : string)
    (args : list string) : Outcome :=
  let '(flags, err) := flag_Parse_targets (mkTargetFlags [] [] []) targets in
  match err with
  | Some err => FlagError err
  | None =>
      let projectDir := "" in
      let projectDir :=
        if (0 <? List.length args)%nat then elem args 0 else projectDir in
      let '(projectDir, err) :=
        if (projectDir =? "")%string || (projectDir =? ".")%string
        then os_Getwd else (projectDir, None) in
      match err with
      | Some err => Fatal ["get wd:"] err
      | None =>
          let '(projectName, err) := getProjectName projectDir in
          match err with
          | Some err => Fatal ["project name:"] err
          | None =>
              let outputDir :=
                if (outputDir =? "")%string
                then filepath_Join [projectDir; "build"] else outputDir in
              let '(buildDists, err) := getBuildOptions (targetOS flags) in
              match err with
              | Some ErrUnsupportedTargetOSARCH =>
                  Fatal ["Unsupported targets: ";
                         String.concat newline (targetOSRaw flags); newline]
                        ErrUnsupportedTargetOSARCH
              | Some err => Fatal ["build options:"] err
              | None =>
                  let config := NewConfig in
                  let config := mkBuildConfig (ProjectDir config) (OutputDir config)
                                  (BinaryName config) (targetOS flags) in
                  let config := mkBuildConfig (ProjectDir config) (OutputDir config)
                                  projectName (Targets config) in
                  let config := mkBuildConfig (ProjectDir config) outputDir
                                  (BinaryName config) (Targets config) in
                  let config := mkBuildConfig projectDir (OutputDir config)
                                  (BinaryName config) (Targets config) in
                  Dispatch config buildDists
              end
          end
      end
  end.

(** ** Theorems *)

Lemma matches_spec (filter : OSARCH) (dist : GoDist) :
  matches filter dist = true <->
  (ARCH filter = "" /\ OS filter = GOOS dist) \/
  (ARCH filter <> "" /\ OS filter = GOOS dist /\ ARCH filter = GOARCH dist).
Proof.
  unfold matches.
  destruct (String.eqb_spec (ARCH filter) "") as [Ha | Ha].
  - rewrite String.eqb_eq. split.
    + intro Hos. left. now split.
    + intros [[_ Hos] | [Hne _]]; [exact Hos | contradiction].
  - rewrite andb_true_iff, !String.eqb_eq. split.
    + intros [Hos Harch]. right. now repeat split.
    + intros [[Hempty _] | [_ Hboth]]; [contradiction | exact Hboth].
Qed.

(** The inner loop appends, to what was collected so far, the catalog
    entries matching one filter, in catalog order. *)
Lemma inner_loop_filter (target : OSARCH) (allDists acc : list GoDist) :
  for_range allDists acc (fun targetDists dist =>
    if (ARCH target =? "")%string then
      if (OS target =? GOOS dist)%string then append targetDists dist
      else targetDists
    else
      if (OS target =? GOOS dist)%string && (ARCH target =? GOARCH dist)%string
      then append targetDists dist
      else targetDists)
  = acc ++ filter (matches target) allDists.
Proof.
  unfold for_range, append, matches.
  revert acc.
  induction allDists as [| d ds IH]; intro acc; simpl.
  - now rewrite app_nil_r.
  - rewrite IH.
    destruct (ARCH target =? "")%string.
    + destruct (OS target =? GOOS d)%string; [now rewrite <- app_assoc | reflexivity].
    + destruct ((OS target =? GOOS d)%string && (ARCH target =? GOARCH d)%string);
        [now rewrite <- app_assoc | reflexivity].
Qed.

Lemma outer_loop_flat_map (targets : list OSARCH) (allDists acc : list GoDist) :
  for_range targets acc (fun targetDists target =>
    targetDists ++ filter (matches target) allDists)
  = acc ++ flat_map (fun target => filter (matches target) allDists) targets.
Proof.
  unfold for_range.
  revert acc.
  induction targets as [| t ts IH]; intro acc; simpl.
  - now rewrite app_nil_r.
  - now rewrite IH, app_assoc.
Qed.

Lemma for_range_ext {A B : Type} (f g : B -> A -> B) (xs : list A) (acc : B) :
  (forall b a, f b a = g b a) -> for_range xs acc f = for_range xs acc g.
Proof.
  intro Hfg. unfold for_range. revert acc.
  induction xs as [| x xs IH]; intro acc; simpl; [reflexivity |].
  now rewrite Hfg, IH.
Qed.

(** One filter selects the matching entries of the catalog, in catalog
    order. *)
Lemma getTargetBuilds_single (target : OSARCH) (allDists : list GoDist) :
  getTargetBuilds [target] allDists = filter (matches target) allDists.
Proof.
  unfold getTargetBuilds. cbn [List.length Nat.eqb for_range fold_left].
  exact (inner_loop_filter target allDists []).
Qed.

(** C1: for a non-empty sequence of filters, [getTargetBuilds] returns
    the concatenation, over the filters in their order, of the catalog
    entries (in catalog order) that match the filter; a filter with an
    empty ARCH matches on the OS alone, a filter with a non-empty ARCH
    matches on OS and ARCH; nothing is deduplicated. *)
Theorem getTargetBuilds_nonempty (targets : list OSARCH) (allDists : list GoDist) :
  targets <> [] ->
  getTargetBuilds targets allDists
  = flat_map (fun target => filter (matches target) allDists) targets
  /\ (forall filter dist,
        matches filter dist = true <->
        (ARCH filter = "" /\ OS filter = GOOS dist) \/
        (ARCH filter <> "" /\ OS filter = GOOS dist /\ ARCH filter = GOARCH dist)).
Proof.
  intro Hne. split; [| exact matches_spec].
  unfold getTargetBuilds.
  destruct targets as [| t ts]; [congruence |].
  cbn [List.length Nat.eqb].
  rewrite (for_range_ext _ (fun targetDists target =>
             targetDists ++ filter (matches target) allDists)).
  - now rewrite outer_loop_flat_map.
  - intros b a. apply inner_loop_filter.
Qed.

(** C2: on an empty filter sequence [getTargetBuilds] is the identity on
    the catalog. *)
Theorem getTargetBuilds_empty (allDists : list GoDist) :
  getTargetBuilds [] allDists = allDists.
Proof. reflexivity. Qed.

(** *** Facts about [strings.Split] and [strings.ToLower] *)

Lemma Split_length (s : string) (sep : ascii) :
  List.length (strings.Split s sep) = S (strings.Count s sep).
Proof.
  induction s as [| c s IH]; simpl; [reflexivity |].
  destruct (Ascii.eqb c sep); simpl.
  - now rewrite IH.
  - destruct (strings.Split s sep) as [| h t]; simpl in *; [discriminate | exact IH].
Qed.

Lemma Split_no_separator (s : string) (sep : ascii) :
  strings.Count s sep = 0 -> strings.Split s sep = [s].
Proof.
  induction s as [| c s IH]; simpl; [reflexivity |].
  destruct (Ascii.eqb c sep); simpl; [discriminate |].
  intro H. now rewrite (IH H).
Qed.

Lemma Split_first_separator (l r : string) (sep : ascii) :
  strings.Count l sep = 0 ->
  strings.Split (l ++ String sep r) sep = l :: strings.Split r sep.
Proof.
  induction l as [| c l IH]; simpl.
  - now rewrite Ascii.eqb_refl.
  - destruct (Ascii.eqb c sep); simpl; [discriminate |].
    intro H. now rewrite (IH H).
Qed.

Lemma Count_first_separator (s : string) (sep : ascii) (n : nat) :
  strings.Count s sep = S n ->
  exists l r, s = (l ++ String sep r)%string
              /\ strings.Count l sep = 0 /\ strings.Count r sep = n.
Proof.
  induction s as [| c s IH]; simpl; [discriminate |].
  destruct (Ascii.eqb_spec c sep) as [-> | Hc]; simpl.
  - intro H. exists EmptyString, s. repeat split. now injection H.
  - intro H. destruct (IH H) as (l & r & -> & Hl & Hr).
    exists (String c l), r. simpl.
    destruct (Ascii.eqb_spec c sep); [contradiction |]. now repeat split.
Qed.

Lemma lowerByte_separator (c : ascii) :
  Ascii.eqb (strings.lowerByte c) "/" = Ascii.eqb c "/".
Proof.
  destruct c as [[] [] [] [] [] [] [] []]; reflexivity.
Qed.

Lemma lowerBytes_Count (s : string) :
  strings.Count (strings.lowerBytes s) "/" = strings.Count s "/".
Proof.
  induction s as [| c s IH]; simpl; [reflexivity |].
  now rewrite lowerByte_separator, IH.
Qed.

Lemma lowerBytes_no_upper (s : string) :
  strings.hasUpper s = false -> strings.lowerBytes s = s.
Proof.
  induction s as [| c s IH]; simpl; [reflexivity |].
  intro H. apply orb_false_iff in H as [Hc Hs].
  unfold strings.lowerByte. now rewrite Hc, (IH Hs).
Qed.

(** On an ASCII string [ToLower] is the byte-wise lower-casing, whether
    or not the early return is taken. *)
Lemma ToLower_ascii (s : string) :
  strings.isASCII s = true ->
  strings.ToLower unicode_ToLower s = strings.lowerBytes s.
Proof.
  intro Hascii. unfold strings.ToLower. rewrite Hascii.
  destruct (strings.hasUpper s) eqn:Hup; [reflexivity |].
  symmetry. now apply lowerBytes_no_upper.
Qed.

(** Lower-casing keeps the separators of the input. *)
Lemma ToLower_Count (s : string) :
  strings.Count (strings.ToLower unicode_ToLower s) "/" = strings.Count s "/".
Proof using unicode_ToLower_separators.
  unfold strings.ToLower.
  destruct (strings.isASCII s) eqn:Hascii.
  - destruct (strings.hasUpper s); [apply lowerBytes_Count | reflexivity].
  - now apply unicode_ToLower_separators.
Qed.

(** *** Filter-string parser *)

Lemma parse_no_separator (rawStr : string) :
  rawStr <> "" ->
  strings.Count (strings.ToLower unicode_ToLower rawStr) "/" = 0 ->
  parseStringToOSARCH rawStr
  = (mkOSARCH (strings.ToLower unicode_ToLower rawStr) "", None).
Proof.
  intros Hne Hc. unfold parseStringToOSARCH.
  apply String.eqb_neq in Hne. rewrite Hne.
  now rewrite (Split_no_separator _ _ Hc).
Qed.

Lemma parse_one_separator (rawStr : string) :
  rawStr <> "" ->
  strings.Count (strings.ToLower unicode_ToLower rawStr) "/" = 1 ->
  exists left right,
    strings.ToLower unicode_ToLower rawStr = (left ++ "/" ++ right)%string
    /\ strings.Count left "/" = 0 /\ strings.Count right "/" = 0
    /\ parseStringToOSARCH rawStr = (mkOSARCH left right, None).
Proof.
  intros Hne Hc. unfold parseStringToOSARCH.
  apply String.eqb_neq in Hne. rewrite Hne.
  destruct (Count_first_separator _ _ _ Hc) as (l & r & Heq & Hl & Hr).
  exists l, r. repeat split; try assumption.
  rewrite Heq, (Split_first_separator _ _ _ Hl), (Split_no_separator _ _ Hr).
  reflexivity.
Qed.

Lemma parse_many_separators (rawStr : string) :
  2 <= strings.Count (strings.ToLower unicode_ToLower rawStr) "/" ->
  parseStringToOSARCH rawStr = (mkOSARCH "" "", Some ErrInvalidOSARCH).
Proof.
  intro Hc. unfold parseStringToOSARCH.
  destruct (rawStr =? "")%string; [reflexivity |].
  rewrite Split_length.
  destruct (strings.Count (strings.ToLower unicode_ToLower rawStr) "/")
    as [| [| n]]; [lia | lia | reflexivity].
Qed.

(** C3: the empty string is an invalid target specification; any other
    input is lower-cased as a whole and then split on ["/"]: with no
    separator it gives the lower-cased string as OS and an empty ARCH,
    with one separator the two sides (each possibly empty) as OS and
    ARCH, with two or more an invalid target specification. *)
Theorem parseStringToOSARCH_spec :
  (forall rawStr : string,
     (rawStr = "" ->
      parseStringToOSARCH rawStr = (mkOSARCH "" "", Some ErrInvalidOSARCH))
     /\ (rawStr <> "" -> strings.Count rawStr "/" = 0 ->
         parseStringToOSARCH rawStr
         = (mkOSARCH (strings.ToLower unicode_ToLower rawStr) "", None))
     /\ (strings.Count rawStr "/" = 1 ->
         exists left right,
           strings.ToLower unicode_ToLower rawStr = (left ++ "/" ++ right)%string
           /\ strings.Count left "/" = 0 /\ strings.Count right "/" = 0
           /\ parseStringToOSARCH rawStr = (mkOSARCH left right, None))
     /\ (2 <= strings.Count rawStr "/" ->
         parseStringToOSARCH rawStr = (mkOSARCH "" "", Some ErrInvalidOSARCH)))
  /\ parseStringToOSARCH "windows/x86" = (mkOSARCH "windows" "x86", None)
  /\ parseStringToOSARCH "WINDOWS/X86" = (mkOSARCH "windows" "x86", None)
  /\ parseStringToOSARCH "windows" = (mkOSARCH "windows" "", None)
  /\ parseStringToOSARCH "" = (mkOSARCH "" "", Some ErrInvalidOSARCH)
  /\ parseStringToOSARCH "a/b/c" = (mkOSARCH "" "", Some ErrInvalidOSARCH).
Proof using unicode_ToLower_separators.
  split; [| repeat split].
  intro rawStr. repeat split.
  - now intros ->.
  - intros Hne Hc. apply parse_no_separator; [assumption |].
    now rewrite ToLower_Count.
  - intro Hc. apply parse_one_separator.
    + intros ->. discriminate.
    + now rewrite ToLower_Count.
  - intro Hc. apply parse_many_separators. now rewrite ToLower_Count.
Qed.

(** C9: when the parser returns an error, the filter returned with it
    is the zero value. *)
Theorem parseStringToOSARCH_error_zero (rawStr : string) (osarch : OSARCH) (err : error) :
  parseStringToOSARCH rawStr = (osarch, Some err) ->
  osarch = mkOSARCH "" "" /\ err = ErrInvalidOSARCH
  /\ (rawStr = ""
      \/ 2 <= strings.Count (strings.ToLower unicode_ToLower rawStr) "/").
Proof.
  unfold parseStringToOSARCH.
  destruct (String.eqb_spec rawStr "") as [-> | Hne].
  - intro H. injection H as <- <-. auto.
  - rewrite Split_length.
    destruct (strings.Count (strings.ToLower unicode_ToLower rawStr) "/")
      as [| [| n]]; cbn [Nat.eqb]; intro H; try discriminate.
    injection H as <- <-. repeat split. right. lia.
Qed.

(** *** Project name *)

Lemma list_ascii_of_string_app (a b : string) :
  list_ascii_of_string (a ++ b) = list_ascii_of_string a ++ list_ascii_of_string b.
Proof.
  induction a as [| c a IH]; simpl; [reflexivity | now rewrite IH].
Qed.

Lemma Count_no_separator_bytes (s : string) :
  strings.Count s "/" = 0 ->
  Forall (fun c => filepath.IsPathSeparator c = false) (list_ascii_of_string s).
Proof.
  induction s as [| c s IH]; simpl; [constructor |].
  unfold filepath.IsPathSeparator, filepath.Separator at 1.
  destruct (Ascii.eqb c "/") eqn:Hc; simpl; [discriminate |].
  intro H. constructor; [exact Hc | exact (IH H)].
Qed.

Lemma dropWhile_head (p : ascii -> bool) (l r : list ascii) :
  l <> [] -> Forall (fun c => p c = false) l ->
  filepath.dropWhile p (l ++ r) = l ++ r.
Proof.
  destruct l as [| c l]; [congruence |].
  intros _ H. inversion H as [| ? ? Hc _]; subst. simpl. now rewrite Hc.
Qed.

Lemma takeWhile_prefix (p : ascii -> bool) (l r : list ascii) (x : ascii) :
  Forall (fun c => p c = true) l -> p x = false ->
  filepath.takeWhile p (l ++ x :: r) = l.
Proof.
  intros Hl Hx. induction Hl as [| c l Hc _ IH]; simpl.
  - now rewrite Hx.
  - now rewrite Hc, IH.
Qed.

(** The base of a path that ends in a separator-free, non-empty name
    is that name. *)
Lemma Base_final_component (dir name : string) :
  name <> "" -> strings.Count name "/" = 0 ->
  filepath.Base (dir ++ "/" ++ name) = name.
Proof.
  intros Hne Hc. unfold filepath.Base.
  destruct (String.eqb_spec (dir ++ "/" ++ name) "") as [He | _].
  - destruct dir; discriminate.
  - rewrite !list_ascii_of_string_app. cbn [list_ascii_of_string app].
    rewrite rev_app_distr. cbn [rev]. rewrite <- !app_assoc. cbn [app].
    assert (Hbytes := Count_no_separator_bytes _ Hc).
    apply Forall_rev in Hbytes.
    rewrite dropWhile_head; [| | exact Hbytes].
    + rewrite takeWhile_prefix.
      * rewrite rev_involutive, string_of_list_ascii_of_string.
        apply String.eqb_neq in Hne. now rewrite Hne.
      * eapply Forall_impl; [| exact Hbytes]. cbv beta. now intros c ->.
      * reflexivity.
    + intro Hnil. apply (f_equal (@rev ascii)) in Hnil.
      rewrite rev_involutive in Hnil. cbn [rev] in Hnil.
      destruct name; [congruence | discriminate].
Qed.

Lemma only_separators_bytes (s : string) :
  only_separators s = true ->
  Forall (fun c => filepath.IsPathSeparator c = true) (list_ascii_of_string s).
Proof.
  induction s as [| c s IH]; simpl; [constructor |].
  intro H. apply andb_true_iff in H as [Hc Hs]. constructor; auto.
Qed.

Lemma dropWhile_prefix (p : ascii -> bool) (l r : list ascii) :
  Forall (fun c => p c = true) l ->
  filepath.dropWhile p (l ++ r) = filepath.dropWhile p r.
Proof.
  induction 1 as [| c l Hc _ IH]; simpl; [reflexivity |].
  now rewrite Hc.
Qed.

Lemma takeWhile_all (p : ascii -> bool) (l : list ascii) :
  Forall (fun c => p c = true) l -> filepath.takeWhile p l = l.
Proof.
  induction 1 as [| c l Hc _ IH]; simpl; [reflexivity |].
  now rewrite Hc, IH.
Qed.

(** The base of [dir ++ name ++ slashes] is [name], when [name] is a
    whole component (non-empty, without separator, preceded by nothing
    or by a separator) and only separators follow it. *)
Lemma Base_component (dir name slashes : string) :
  name <> "" -> strings.Count name "/" = 0 ->
  only_separators slashes = true ->
  dir = "" \/ (exists d, dir = (d ++ "/")%string) ->
  filepath.Base (dir ++ name ++ slashes) = name.
Proof.
  intros Hne Hc Hs Hdir. unfold filepath.Base.
  destruct (String.eqb_spec (dir ++ name ++ slashes) "") as [He | _].
  - destruct dir; [destruct name; [now elim Hne | discriminate] | discriminate].
  - rewrite !list_ascii_of_string_app, !rev_app_distr, <- app_assoc.
    assert (Hname := Count_no_separator_bytes _ Hc). apply Forall_rev in Hname.
    assert (Hsl := only_separators_bytes _ Hs). apply Forall_rev in Hsl.
    rewrite (dropWhile_prefix _ _ _ Hsl).
    rewrite dropWhile_head; [| | exact Hname].
    + assert (Htake : filepath.takeWhile
                        (fun c => negb (filepath.IsPathSeparator c))
                        (rev (list_ascii_of_string name)
                         ++ rev (list_ascii_of_string dir))
                      = rev (list_ascii_of_string name)).
      { assert (Hnot : Forall (fun c => negb (filepath.IsPathSeparator c) = true)
                         (rev (list_ascii_of_string name))).
        { eapply Forall_impl; [| exact Hname]. cbv beta. now intros c ->. }
        destruct Hdir as [-> | [d ->]].
        - cbn [list_ascii_of_string rev]. rewrite app_nil_r.
          now apply takeWhile_all.
        - rewrite list_ascii_of_string_app, rev_app_distr.
          cbn [list_ascii_of_string rev app].
          now apply takeWhile_prefix. }
      rewrite Htake, rev_involutive, string_of_list_ascii_of_string.
      apply String.eqb_neq in Hne. now rewrite Hne.
    + intro Hnil. apply (f_equal (@rev ascii)) in Hnil.
      rewrite rev_involutive in Hnil. cbn [rev] in Hnil.
      destruct name; [now elim Hne | discriminate].
Qed.

(** The base of a non-empty path of separators is the separator. *)
Lemma Base_only_separators (slashes : string) :
  slashes <> "" -> only_separators slashes = true ->
  filepath.Base slashes = "/".
Proof.
  intros Hne Hs. unfold filepath.Base.
  apply String.eqb_neq in Hne. rewrite Hne.
  assert (Hsl := only_separators_bytes _ Hs). apply Forall_rev in Hsl.
  rewrite <- (app_nil_r (rev (list_ascii_of_string slashes))).
  rewrite (dropWhile_prefix _ _ _ Hsl). reflexivity.
Qed.

(** Every path is empty, or made of separators only, or has a last
    component followed by separators only. *)
Lemma path_shape (path : string) :
  path = ""
  \/ (path <> "" /\ only_separators path = true)
  \/ (exists dir name slashes,
        path = (dir ++ name ++ slashes)%string
        /\ name <> "" /\ strings.Count name "/" = 0
        /\ only_separators slashes = true
        /\ (dir = "" \/ exists d, dir = (d ++ "/")%string)).
Proof.
  induction path as [| c path IH]; [now left |]. right.
  destruct (Ascii.eqb_spec c "/") as [-> | Hc].
  - destruct IH as [-> | [[Hne Hs] | (dir & name & slashes & -> & Hn & Hcount & Hs & Hdir)]].
    + left. split; [discriminate | reflexivity].
    + left. split; [discriminate |]. cbn. exact Hs.
    + right. exists (String "/" dir), name, slashes.
      split; [reflexivity |]. split; [exact Hn |]. split; [exact Hcount |].
      split; [exact Hs |]. right.
      destruct Hdir as [-> | [d ->]]; [now exists "" | now exists (String "/" d)].
  - assert (Hcb : Ascii.eqb c "/" = false) by now apply Ascii.eqb_neq.
    right.
    destruct IH as [-> | [[Hne Hs] | (dir & name & slashes & -> & Hn & Hcount & Hs & Hdir)]].
    + exists "", (String c ""), "". cbn. rewrite Hcb.
      split; [reflexivity |]. split; [discriminate |]. split; [reflexivity |].
      split; [reflexivity | now left].
    + exists "", (String c ""), path. cbn. rewrite Hcb.
      split; [reflexivity |]. split; [discriminate |]. split; [reflexivity |].
      split; [exact Hs | now left].
    + destruct Hdir as [-> | [d ->]].
      * exists "", (String c name), slashes. cbn. rewrite Hcb.
        split; [reflexivity |]. split; [discriminate |]. split; [exact Hcount |].
        split; [exact Hs | now left].
      * exists (String c d ++ "/")%string, name, slashes.
        split; [reflexivity |]. split; [exact Hn |]. split; [exact Hcount |].
        split; [exact Hs |]. right. now exists (String c d).
Qed.

(** C6: [getProjectName] returns the base (the final component) of the
    path it is given, and for ["."] the base name of the working
    directory, not the whole of its path.  The final component is
    pinned for every path: the last name that stands alone between
    separators, whatever separators follow it; ["/"] for a path of
    separators only; ["."] for the empty path. *)
Theorem getProjectName_base :
  (forall dir name slashes,
     name <> "" -> strings.Count name "/" = 0 ->
     only_separators slashes = true ->
     dir = "" \/ (exists d, dir = (d ++ "/")%string) ->
     ((dir ++ name ++ slashes)%string <> "." ->
      getProjectName (dir ++ name ++ slashes) = (name, None))
     /\ (os_Getwd = ((dir ++ name ++ slashes)%string, None) ->
         getProjectName "." = (name, None)))
  /\ (forall slashes,
        slashes <> "" -> only_separators slashes = true ->
        getProjectName slashes = ("/", None)
        /\ (os_Getwd = (slashes, None) -> getProjectName "." = ("/", None)))
  /\ getProjectName "" = (".", None)
  /\ (os_Getwd = ("", None) -> getProjectName "." = (".", None))
  /\ (forall path,
        path = ""
        \/ (path <> "" /\ only_separators path = true)
        \/ (exists dir name slashes,
              path = (dir ++ name ++ slashes)%string
              /\ name <> "" /\ strings.Count name "/" = 0
              /\ only_separators slashes = true
              /\ (dir = "" \/ exists d, dir = (d ++ "/")%string)))
  /\ getProjectName "/usr/home/u/projects/myproject" = ("myproject", None)
  /\ getProjectName "C:/Users/username/projects/myproject" = ("myproject", None).
Proof.
  assert (Hdot : forall wd, os_Getwd = (wd, None) ->
            getProjectName "." = (filepath.Base wd, None)).
  { intros wd Hwd. unfold getProjectName. cbn [String.eqb Ascii.eqb Bool.eqb].
    now rewrite Hwd. }
  assert (Hother : forall projFp, projFp <> "." ->
            getProjectName projFp = (filepath.Base projFp, None)).
  { intros projFp Hne. unfold getProjectName.
    apply String.eqb_neq in Hne. now rewrite Hne. }
  split; [| split; [| split; [| split; [| split; [| split]]]]].
  - intros dir name slashes Hne Hc Hs Hdir.
    pose proof (Base_component dir name slashes Hne Hc Hs Hdir) as Hbase.
    split.
    + intro Hnd. now rewrite (Hother _ Hnd), Hbase.
    + intro Hwd. now rewrite (Hdot _ Hwd), Hbase.
  - intros slashes Hne Hs.
    pose proof (Base_only_separators slashes Hne Hs) as Hbase.
    split.
    + rewrite Hother; [now rewrite Hbase |].
      intros ->. discriminate.
    + intro Hwd. now rewrite (Hdot _ Hwd), Hbase.
  - reflexivity.
  - intro Hwd. now rewrite (Hdot _ Hwd).
  - exact path_shape.
  - reflexivity.
  - reflexivity.
Qed.

(** C10: on any input other than ["."] [getProjectName] returns the
    base of the input with a nil error; an error comes only from the
    working directory on the input ["."], and the empty string gives
    ["."]. *)
Theorem getProjectName_no_error :
  (forall projFp, projFp <> "." ->
     getProjectName projFp = (filepath.Base projFp, None))
  /\ (forall projFp name err, getProjectName projFp = (name, Some err) ->
        projFp = "." /\ snd os_Getwd = Some err /\ name = "")
  /\ getProjectName "" = (".", None).
Proof.
  split; [| split; [| reflexivity]].
  - intros projFp Hne. unfold getProjectName.
    apply String.eqb_neq in Hne. now rewrite Hne.
  - intros projFp name err. unfold getProjectName.
    destruct (String.eqb_spec projFp ".") as [-> | Hne]; [| discriminate].
    destruct os_Getwd as [wd [e |]]; [| discriminate].
    intro H. injection H as <- <-. now repeat split.
Qed.

(** *** Build job *)

Lemma windows_family_spec (dist : GoDist) :
  (GOOS dist =? "windows")%string || (GOOS dist =? "nt")%string = true
  <-> GOOS dist = "windows" \/ GOOS dist = "nt".
Proof.
  now rewrite orb_true_iff, !String.eqb_eq.
Qed.

Lemma Build_runs_cmd (config : BuildConfig) (dist : GoDist) :
  Build config dist = cmd_Output (Build_cmd config dist).
Proof.
  unfold Build. now destruct (cmd_Output (Build_cmd config dist)) as [res [err |]].
Qed.

(** C5: the output file name is [BinaryName-GOOS_GOARCH], with [.exe]
    appended exactly when GOOS is ["windows"] or ["nt"], and the output
    path given to the build subprocess is that name joined under
    [OutputDir]. *)
Theorem Build_output_path :
  (forall config dist,
     let stem := (BinaryName config ++ "-" ++ GOOS dist ++ "_" ++ GOARCH dist)%string in
     (GOOS dist = "windows" \/ GOOS dist = "nt" ->
      Build_filename config dist = (stem ++ ".exe")%string)
     /\ (~ (GOOS dist = "windows" \/ GOOS dist = "nt") ->
         Build_filename config dist = stem)
     /\ Args (Build_cmd config dist)
        = ["go"; "build"; "-o";
           filepath_Join [OutputDir config; Build_filename config dist];
           ProjectDir config]
     /\ Build config dist = cmd_Output (Build_cmd config dist))
  /\ (forall projectDir outputDir targets cgo first,
        Build_filename (mkBuildConfig projectDir outputDir "app" targets)
                       (mkGoDist "windows" "x86" cgo first)
        = "app-windows_x86.exe"
        /\ Build_filename (mkBuildConfig projectDir outputDir "app" targets)
                          (mkGoDist "linux" "arm64" cgo first)
           = "app-linux_arm64").
Proof.
  split; [| now split].
  intros config dist stem. repeat split.
  - intro Hw. apply windows_family_spec in Hw.
    unfold Build_filename. now rewrite Hw.
  - intro Hw. unfold Build_filename.
    destruct ((GOOS dist =? "windows")%string || (GOOS dist =? "nt")%string) eqn:Hb;
      [| reflexivity].
    apply windows_family_spec in Hb. contradiction.
  - apply Build_runs_cmd.
Qed.

(** C8: the build subprocess has [ProjectDir] as its working directory
    and, as its environment, the environment of the process followed by
    the two entries [GOOS=...] and [GOARCH=...]; every entry of the
    process environment is kept, at its place. *)
Theorem Build_dir_env (config : BuildConfig) (dist : GoDist) :
  Dir (Build_cmd config dist) = ProjectDir config
  /\ Env (Build_cmd config dist)
     = os_Environ ++ [("GOOS=" ++ GOOS dist)%string; ("GOARCH=" ++ GOARCH dist)%string]
  /\ firstn (List.length os_Environ) (Env (Build_cmd config dist)) = os_Environ
  /\ List.length (Env (Build_cmd config dist)) = List.length os_Environ + 2
  /\ Build config dist = cmd_Output (Build_cmd config dist).
Proof.
  assert (Henv : Env (Build_cmd config dist)
                 = os_Environ ++ [("GOOS=" ++ GOOS dist)%string;
                                  ("GOARCH=" ++ GOARCH dist)%string]).
  { unfold Build_cmd, set_Env, append, GOOSEnv, GOARCHEnv. cbn [Env].
    now rewrite <- app_assoc. }
  repeat split.
  - exact Henv.
  - rewrite Henv. rewrite firstn_app, Nat.sub_diag, firstn_all. cbn [firstn].
    apply app_nil_r.
  - rewrite Henv, length_app. reflexivity.
  - apply Build_runs_cmd.
Qed.

(** *** Toolchain inspector *)

(** C4: once the catalog has been fetched and parsed, a non-empty
    filter sequence that selects nothing gives the error
    [ErrUnsupportedTargetOSARCH]; one that selects something gives the
    selection with a nil error; an empty filter sequence gives the whole
    catalog with a nil error. *)
Theorem getBuildOptions_spec (targets : list OSARCH) (rawJson : string)
    (supportedDists : list GoDist) :
  cmd_Output (Command "go" ["tool"; "dist"; "list"; "-json"]) = (rawJson, None) ->
  json_Unmarshal rawJson = (supportedDists, None) ->
  (targets <> [] -> getTargetBuilds targets supportedDists = [] ->
   getBuildOptions targets = ([], Some ErrUnsupportedTargetOSARCH))
  /\ (targets <> [] -> getTargetBuilds targets supportedDists <> [] ->
      getBuildOptions targets = (getTargetBuilds targets supportedDists, None))
  /\ (targets = [] -> getBuildOptions targets = (supportedDists, None)).
Proof.
  intros Hout Hjson. unfold getBuildOptions. rewrite Hout, Hjson.
  repeat split.
  - intros Hne Hnone.
    destruct targets as [| t ts]; [congruence |]. cbn [List.length Nat.eqb].
    now rewrite Hnone.
  - intros Hne Hsome.
    destruct targets as [| t ts]; [congruence |]. cbn [List.length Nat.eqb].
    destruct (getTargetBuilds (t :: ts) supportedDists); [congruence | reflexivity].
  - now intros ->.
Qed.

(** [ErrUnsupportedTargetOSARCH] comes from nowhere else: the other
    errors of [getBuildOptions] are wrapped by [Errorf]. *)
Lemma getBuildOptions_unsupported_only (targets : list OSARCH) (dists : list GoDist) :
  getBuildOptions targets = (dists, Some ErrUnsupportedTargetOSARCH) ->
  exists rawJson supportedDists,
    cmd_Output (Command "go" ["tool"; "dist"; "list"; "-json"]) = (rawJson, None)
    /\ json_Unmarshal rawJson = (supportedDists, None)
    /\ targets <> []
    /\ getTargetBuilds targets supportedDists = []
    /\ dists = [].
Proof.
  unfold getBuildOptions.
  destruct (cmd_Output _) as [rawJson [e |]]; [discriminate |].
  destruct (json_Unmarshal rawJson) as [supportedDists [e |]] eqn:Hjson;
    [discriminate |].
  destruct targets as [| t ts]; cbn [List.length Nat.eqb]; [discriminate |].
  destruct (getTargetBuilds (t :: ts) supportedDists) eqn:Hsel;
    cbn [List.length Nat.ltb Nat.leb]; [| discriminate].
  intro H. injection H as <-.
  exists rawJson, supportedDists. repeat split; congruence.
Qed.

(** ** Further properties of the target filter *)

(** The two loops, for any non-empty sequence of filters. *)
Lemma getTargetBuilds_flat_map (targets : list OSARCH) (allDists : list GoDist) :
  targets <> [] ->
  getTargetBuilds targets allDists
  = flat_map (fun target => filter (matches target) allDists) targets.
Proof.
  intro Hne. unfold getTargetBuilds.
  destruct targets as [| t ts]; [now elim Hne |].
  cbn [List.length Nat.eqb].
  rewrite (for_range_ext _ (fun targetDists target =>
             targetDists ++ filter (matches target) allDists)).
  - now rewrite outer_loop_flat_map.
  - intros b a. apply inner_loop_filter.
Qed.

(** With at least one filter, a distribution is returned exactly when
    it is in the catalog and some filter matches it: nothing is made up
    and no match is missed. *)
Theorem getTargetBuilds_In (targets : list OSARCH) (allDists : list GoDist)
    (dist : GoDist) :
  targets <> [] ->
  (In dist (getTargetBuilds targets allDists) <->
   In dist allDists /\ exists target, In target targets /\ matches target dist = true).
Proof.
  intro Hne. rewrite (getTargetBuilds_flat_map _ _ Hne), in_flat_map. split.
  - intros (t & Ht & Hin). apply filter_In in Hin as [Hin Hm].
    split; [exact Hin | now exists t].
  - intros (Hin & t & Ht & Hm). exists t. split; [exact Ht |].
    apply filter_In. now split.
Qed.

(** Filtering by two non-empty sequences of filters one after the other
    is filtering by each and concatenating. *)
Theorem getTargetBuilds_app (targets1 targets2 : list OSARCH) (allDists : list GoDist) :
  targets1 <> [] -> targets2 <> [] ->
  getTargetBuilds (targets1 ++ targets2) allDists
  = getTargetBuilds targets1 allDists ++ getTargetBuilds targets2 allDists.
Proof.
  intros H1 H2.
  rewrite (getTargetBuilds_flat_map _ _ H1), (getTargetBuilds_flat_map _ _ H2).
  rewrite getTargetBuilds_flat_map.
  - apply flat_map_app.
  - intro Happ. apply app_eq_nil in Happ as [Hnil _]. now elim H1.
Qed.

Lemma flat_map_length_le {A B : Type} (f : A -> list B) (l : list A) (n : nat) :
  (forall a, List.length (f a) <= n) ->
  List.length (flat_map f l) <= List.length l * n.
Proof.
  intro Hf. induction l as [| a l IH]; simpl; [lia |].
  rewrite length_app. specialize (Hf a). lia.
Qed.

(** Each filter contributes at most the whole catalog. *)
Theorem getTargetBuilds_length (targets : list OSARCH) (allDists : list GoDist) :
  targets <> [] ->
  List.length (getTargetBuilds targets allDists)
  <= List.length targets * List.length allDists.
Proof.
  intro Hne. rewrite (getTargetBuilds_flat_map _ _ Hne).
  apply flat_map_length_le. intro t. apply filter_length_le.
Qed.

(** A filter with an architecture selects, among what the filter on
    its OS alone selects, the entries of that architecture. *)
Theorem getTargetBuilds_refine (os arch : string) (allDists : list GoDist) :
  arch <> "" ->
  getTargetBuilds [mkOSARCH os arch] allDists
  = filter (fun dist => (arch =? GOARCH dist)%string)
           (getTargetBuilds [mkOSARCH os ""] allDists).
Proof.
  intro Harch. rewrite !getTargetBuilds_single.
  assert (Hm : forall d, matches (mkOSARCH os arch) d
                         = matches (mkOSARCH os "") d && (arch =? GOARCH d)%string).
  { intro d. unfold matches. cbn [ARCH OS String.eqb].
    apply String.eqb_neq in Harch. now rewrite Harch. }
  induction allDists as [| d ds IH]; [reflexivity |].
  cbn [filter]. rewrite Hm, IH.
  destruct (matches (mkOSARCH os "") d); cbn [andb filter]; reflexivity.
Qed.

Lemma filter_none {A : Type} (f : A -> bool) (l : list A) :
  (forall a, In a l -> f a = false) -> filter f l = [].
Proof.
  induction l as [| a l IH]; intro H; [reflexivity |].
  cbn [filter]. rewrite (H a (or_introl eq_refl)).
  apply IH. intros b Hb. apply H. now right.
Qed.

(** In a catalog whose entries differ in OS or architecture, a filter
    with an architecture selects at most one entry. *)
Lemma filter_matches_unique (target : OSARCH) (allDists : list GoDist) :
  ARCH target <> "" ->
  NoDup (map (fun dist => (GOOS dist, GOARCH dist)) allDists) ->
  List.length (filter (matches target) allDists) <= 1.
Proof.
  intros Harch Hnodup.
  induction allDists as [| d ds IH]; [simpl; lia |].
  cbn [map] in Hnodup. inversion Hnodup as [| ? ? Hnotin Hnodup']; subst.
  cbn [filter]. destruct (matches target d) eqn:Hd; [| now apply IH].
  rewrite filter_none; [simpl; lia |].
  intros d' Hin. destruct (matches target d') eqn:Hd'; [| reflexivity].
  exfalso. apply Hnotin.
  apply matches_spec in Hd as [[He _] | (_ & Hos & Har)]; [contradiction |].
  apply matches_spec in Hd' as [[He _] | (_ & Hos' & Har')]; [contradiction |].
  rewrite <- Hos, <- Har, Hos', Har'.
  now apply (in_map (fun dist => (GOOS dist, GOARCH dist))).
Qed.

(** With such a catalog, filters that all name an architecture select
    at most one build each. *)
Theorem getTargetBuilds_one_per_filter (targets : list OSARCH) (allDists : list GoDist) :
  targets <> [] ->
  Forall (fun target => ARCH target <> "") targets ->
  NoDup (map (fun dist => (GOOS dist, GOARCH dist)) allDists) ->
  List.length (getTargetBuilds targets allDists) <= List.length targets.
Proof.
  intros Hne Harch Hnodup. rewrite (getTargetBuilds_flat_map _ _ Hne).
  clear Hne. induction Harch as [| t ts Ht _ IH]; [simpl; lia |].
  cbn [flat_map List.length]. rewrite length_app.
  pose proof (filter_matches_unique t allDists Ht Hnodup). lia.
Qed.

(** ** Further properties of the toolchain inspector *)

(** Every error of [getBuildOptions] comes with an empty slice, and is
    the wrapped error of the failed run, the wrapped error of the failed
    parse, or [ErrUnsupportedTargetOSARCH] for filters that were given. *)
Theorem getBuildOptions_error (targets : list OSARCH) (dists : list GoDist)
    (err : error) :
  getBuildOptions targets = (dists, Some err) ->
  dists = []
  /\ ((exists e, snd (cmd_Output (Command "go" ["tool"; "dist"; "list"; "-json"])) = Some e
                 /\ err = Errorf_w "dist: " e)
      \/ (exists rawJson e,
            cmd_Output (Command "go" ["tool"; "dist"; "list"; "-json"]) = (rawJson, None)
            /\ snd (json_Unmarshal rawJson) = Some e
            /\ err = Errorf_w "json parse: " e)
      \/ (err = ErrUnsupportedTargetOSARCH /\ targets <> [])).
Proof.
  unfold getBuildOptions.
  destruct (cmd_Output _) as [rawJson [e |]].
  - intro H. injection H as <- <-. split; [reflexivity |]. left. now exists e.
  - destruct (json_Unmarshal rawJson) as [supportedDists [e |]] eqn:Hjson.
    + intro H. injection H as <- <-. split; [reflexivity |].
      right. left. exists rawJson, e. rewrite Hjson. now repeat split.
    + destruct targets as [| t ts]; cbn [List.length Nat.eqb]; [discriminate |].
      destruct (getTargetBuilds (t :: ts) supportedDists);
        cbn [List.length Nat.ltb Nat.leb]; [| discriminate].
      intro H. injection H as <- <-. split; [reflexivity |].
      right. right. split; [reflexivity | discriminate].
Qed.

(** What [getTargetBuilds] returns comes from the catalog, with or
    without filters. *)
Lemma getTargetBuilds_incl (targets : list OSARCH) (allDists : list GoDist)
    (dist : GoDist) :
  In dist (getTargetBuilds targets allDists) -> In dist allDists.
Proof.
  destruct targets as [| t ts]; [trivial |].
  rewrite getTargetBuilds_flat_map by discriminate.
  intro Hin. apply in_flat_map in Hin as (target & _ & Hin).
  now apply filter_In in Hin.
Qed.

Lemma getBuildOptions_filtered (targets : list OSARCH) (dists : list GoDist) :
  getBuildOptions targets = (dists, None) ->
  exists rawJson supportedDists,
    cmd_Output (Command "go" ["tool"; "dist"; "list"; "-json"]) = (rawJson, None)
    /\ json_Unmarshal rawJson = (supportedDists, None)
    /\ dists = getTargetBuilds targets supportedDists
    /\ (targets <> [] -> dists <> []).
Proof.
  unfold getBuildOptions.
  destruct (cmd_Output _) as [rawJson [e |]]; [discriminate |].
  destruct (json_Unmarshal rawJson) as [supportedDists [e |]] eqn:Hjson;
    [discriminate |].
  destruct targets as [| t ts]; cbn [List.length Nat.eqb].
  - intro H. injection H as <-. exists rawJson, supportedDists.
    split; [reflexivity |]. split; [exact Hjson |]. split; [reflexivity |].
    intro Hne. now elim Hne.
  - destruct (getTargetBuilds (t :: ts) supportedDists) as [| d ds] eqn:Hsel;
      cbn [List.length Nat.ltb Nat.leb]; [discriminate |].
    intro H. injection H as <-. exists rawJson, supportedDists.
    split; [reflexivity |]. split; [exact Hjson |]. split; [now rewrite Hsel |].
    discriminate.
Qed.

(** A success of [getBuildOptions] is the fetched catalog filtered by
    [getTargetBuilds]: it has only catalog entries, and it is not empty
    when filters were given. *)
Theorem getBuildOptions_success (targets : list OSARCH) (dists : list GoDist) :
  getBuildOptions targets = (dists, None) ->
  exists rawJson supportedDists,
    cmd_Output (Command "go" ["tool"; "dist"; "list"; "-json"]) = (rawJson, None)
    /\ json_Unmarshal rawJson = (supportedDists, None)
    /\ dists = getTargetBuilds targets supportedDists
    /\ (forall dist, In dist dists -> In dist supportedDists)
    /\ (targets <> [] -> dists <> []).
Proof.
  intro Hopts.
  destruct (getBuildOptions_filtered _ _ Hopts)
    as (rawJson & supportedDists & Hout & Hjson & Hdists & Hne).
  exists rawJson, supportedDists.
  split; [exact Hout |]. split; [exact Hjson |]. split; [exact Hdists |].
  split; [| exact Hne].
  intros dist Hin. rewrite Hdists in Hin. now apply getTargetBuilds_incl in Hin.
Qed.

(** ** Further properties of the filter-string parser *)

Lemma Count_app (a b : string) (sep : ascii) :
  strings.Count (a ++ b) sep = strings.Count a sep + strings.Count b sep.
Proof.
  induction a as [| c a IH]; simpl; [reflexivity | rewrite IH; lia].
Qed.

(** The error of the parser is always [ErrInvalidOSARCH]. *)
Lemma parse_error_invalid (rawStr : string) (err : error) :
  snd (parseStringToOSARCH rawStr) = Some err -> err = ErrInvalidOSARCH.
Proof.
  unfold parseStringToOSARCH.
  destruct (rawStr =? "")%string; [cbn; congruence |].
  destruct (_ =? 1)%nat; [discriminate |].
  destruct (_ =? 2)%nat; [discriminate | cbn; congruence].
Qed.

(** The two fields of a parsed filter never contain the separator. *)
Theorem parseStringToOSARCH_fields (rawStr : string) (osarch : OSARCH) :
  parseStringToOSARCH rawStr = (osarch, None) ->
  strings.Count (OS osarch) "/" = 0 /\ strings.Count (ARCH osarch) "/" = 0.
Proof.
  unfold parseStringToOSARCH.
  destruct (rawStr =? "")%string; [discriminate |].
  rewrite Split_length.
  destruct (strings.Count (strings.ToLower unicode_ToLower rawStr) "/")
    as [| [| n]] eqn:Hc; cbn [Nat.eqb]; [| | discriminate].
  - rewrite (Split_no_separator _ _ Hc). intro H. injection H as <-.
    now split.
  - destruct (Count_first_separator _ _ _ Hc) as (l & r & -> & Hl & Hr).
    rewrite (Split_first_separator _ _ _ Hl), (Split_no_separator _ _ Hr).
    intro H. injection H as <-. now split.
Qed.

Lemma lowerBytes_empty (s : string) :
  strings.lowerBytes s = "" <-> s = "".
Proof.
  destruct s; simpl; split; congruence.
Qed.

(** Two ASCII spellings that differ only in the case of their letters
    parse to the same result. *)
Theorem parseStringToOSARCH_case_insensitive (raw1 raw2 : string) :
  strings.isASCII raw1 = true -> strings.isASCII raw2 = true ->
  strings.lowerBytes raw1 = strings.lowerBytes raw2 ->
  parseStringToOSARCH raw1 = parseStringToOSARCH raw2.
Proof.
  intros H1 H2 Heq. unfold parseStringToOSARCH.
  rewrite (ToLower_ascii _ H1), (ToLower_ascii _ H2), Heq.
  destruct (String.eqb_spec raw1 "") as [-> | Hn1];
    destruct (String.eqb_spec raw2 "") as [-> | Hn2]; try reflexivity.
  - symmetry in Heq. apply (proj1 (lowerBytes_empty raw2)) in Heq. contradiction.
  - apply (proj1 (lowerBytes_empty raw1)) in Heq. contradiction.
Qed.

Lemma lowerByte_not_upper (c : ascii) :
  strings.isUpperByte (strings.lowerByte c) = false.
Proof.
  destruct c as [[] [] [] [] [] [] [] []]; reflexivity.
Qed.

Lemma lowerBytes_hasUpper (s : string) :
  strings.hasUpper (strings.lowerBytes s) = false.
Proof.
  induction s as [| c s IH]; simpl; [reflexivity |].
  now rewrite lowerByte_not_upper, IH.
Qed.

Lemma hasUpper_app (a b : string) :
  strings.hasUpper (a ++ b) = strings.hasUpper a || strings.hasUpper b.
Proof.
  induction a as [| c a IH]; simpl; [reflexivity |].
  now rewrite IH, orb_assoc.
Qed.

(** A filter parsed from an ASCII string has no upper-case letter. *)
Theorem parseStringToOSARCH_lower (rawStr : string) (osarch : OSARCH) :
  strings.isASCII rawStr = true ->
  parseStringToOSARCH rawStr = (osarch, None) ->
  strings.hasUpper (OS osarch) = false /\ strings.hasUpper (ARCH osarch) = false.
Proof.
  intro Hascii. unfold parseStringToOSARCH.
  destruct (rawStr =? "")%string; [discriminate |].
  rewrite Split_length, (ToLower_ascii _ Hascii).
  pose proof (lowerBytes_hasUpper rawStr) as Hup.
  destruct (strings.Count (strings.lowerBytes rawStr) "/")
    as [| [| n]] eqn:Hc; cbn [Nat.eqb]; [| | discriminate].
  - rewrite (Split_no_separator _ _ Hc). intro H. injection H as <-.
    now split.
  - destruct (Count_first_separator _ _ _ Hc) as (l & r & Hlow & Hl & Hr).
    rewrite Hlow in Hup |- *.
    rewrite (Split_first_separator _ _ _ Hl), (Split_no_separator _ _ Hr).
    rewrite hasUpper_app in Hup. apply orb_false_iff in Hup as [Hul Hur].
    intro H. injection H as <-. split; [exact Hul | exact Hur].
Qed.

(** Naming a distribution of the catalog, in any letter case, by its OS
    or by its OS and architecture, gives a filter that selects it. *)
Theorem parseStringToOSARCH_selects (rawStr : string) (dist : GoDist)
    (allDists : list GoDist) :
  rawStr <> "" ->
  strings.isASCII rawStr = true ->
  strings.Count (GOOS dist) "/" = 0 ->
  strings.Count (GOARCH dist) "/" = 0 ->
  strings.lowerBytes rawStr = GOOS dist
  \/ strings.lowerBytes rawStr = (GOOS dist ++ "/" ++ GOARCH dist)%string ->
  In dist allDists ->
  exists osarch,
    parseStringToOSARCH rawStr = (osarch, None)
    /\ In dist (getTargetBuilds [osarch] allDists).
Proof.
  intros Hne Hascii Hos Harch Hlow Hin.
  assert (Hsel : forall osarch, matches osarch dist = true ->
            In dist (getTargetBuilds [osarch] allDists)).
  { intros osarch Hm. rewrite getTargetBuilds_single. apply filter_In. now split. }
  unfold parseStringToOSARCH.
  apply String.eqb_neq in Hne. rewrite Hne, (ToLower_ascii _ Hascii).
  destruct Hlow as [-> | ->].
  - rewrite (Split_no_separator _ _ Hos). eexists. split; [reflexivity |].
    apply Hsel. unfold matches. cbn [ARCH OS String.eqb]. apply String.eqb_refl.
  - change (GOOS dist ++ "/" ++ GOARCH dist)%string
      with (GOOS dist ++ String "/" (GOARCH dist))%string.
    rewrite (Split_first_separator _ _ _ Hos), (Split_no_separator _ _ Harch).
    eexists. split; [reflexivity |].
    apply Hsel. unfold matches, elem. cbn [ARCH OS nth].
    rewrite !String.eqb_refl. now destruct (GOARCH dist =? "")%string.
Qed.

(** ** Further properties of the project name *)

Lemma takeWhile_Forall (p : ascii -> bool) (l : list ascii) :
  Forall (fun c => p c = true) (filepath.takeWhile p l).
Proof.
  induction l as [| c l IH]; simpl; [constructor |].
  destruct (p c) eqn:Hc; [now constructor | constructor].
Qed.

Lemma Count_of_bytes (l : list ascii) :
  Forall (fun c => filepath.IsPathSeparator c = false) l ->
  strings.Count (string_of_list_ascii l) "/" = 0.
Proof.
  induction 1 as [| c l Hc _ IH]; simpl; [reflexivity |].
  unfold filepath.IsPathSeparator, filepath.Separator in Hc.
  now rewrite Hc, IH.
Qed.

(** [Base] never returns the empty string, and what it returns is
    ["/"] or has no separator. *)
Lemma Base_shape (path : string) :
  filepath.Base path <> ""
  /\ (filepath.Base path = "/" \/ strings.Count (filepath.Base path) "/" = 0).
Proof.
  unfold filepath.Base.
  destruct (path =? "")%string; [split; [discriminate | now right] |].
  set (name := string_of_list_ascii _).
  destruct (String.eqb_spec name "") as [_ | Hne].
  - split; [discriminate | now left].
  - split; [exact Hne | right].
    unfold name. apply Count_of_bytes, Forall_rev.
    eapply Forall_impl; [| apply takeWhile_Forall].
    cbv beta. intros c Hc. now apply negb_true_iff in Hc.
Qed.

(** The project name is never empty, and it is ["/"] or has no
    separator in it. *)
Theorem getProjectName_name (projFp name : string) :
  getProjectName projFp = (name, None) ->
  name <> "" /\ (name = "/" \/ strings.Count name "/" = 0).
Proof.
  unfold getProjectName.
  destruct (projFp =? ".")%string.
  - destruct os_Getwd as [wd [e |]]; [discriminate |].
    intro H. injection H as <-. apply Base_shape.
  - intro H. injection H as <-. apply Base_shape.
Qed.

Lemma Base_trailing_separator (path : string) :
  path <> "" -> filepath.Base (path ++ "/") = filepath.Base path.
Proof.
  intro Hne. unfold filepath.Base.
  apply String.eqb_neq in Hne. rewrite Hne.
  destruct (String.eqb_spec (path ++ "/") "") as [He | _].
  - destruct path; discriminate.
  - rewrite list_ascii_of_string_app, rev_app_distr. reflexivity.
Qed.

(** A separator at the end of the path does not change the project
    name; but ["./"] is not taken for the working directory as ["."]
    is, its name is ["."]. *)
Theorem getProjectName_trailing_separator :
  (forall projFp, projFp <> "" -> projFp <> "." ->
     getProjectName (projFp ++ "/") = getProjectName projFp)
  /\ getProjectName "./" = (".", None).
Proof.
  split; [| reflexivity].
  intros projFp Hne Hdot. unfold getProjectName.
  apply String.eqb_neq in Hdot. rewrite Hdot.
  destruct (String.eqb_spec (projFp ++ "/") ".") as [He | _].
  - destruct projFp as [| c [| c' p]]; discriminate.
  - now rewrite Base_trailing_separator.
Qed.

(** When the working directory has a separator in its path and is not
    the root, the name of ["."] is not that path: the result that the
    case "current dir (.)" of [TestGetProjectName] wants is not the one
    returned. *)
Theorem getProjectName_dot_differs (wd : string) :
  os_Getwd = (wd, None) ->
  0 < strings.Count wd "/" -> wd <> "/" ->
  exists name, getProjectName "." = (name, None) /\ name <> wd.
Proof.
  intros Hwd Hsep Hroot. exists (filepath.Base wd). split.
  - unfold getProjectName. cbn [String.eqb Ascii.eqb Bool.eqb]. now rewrite Hwd.
  - intro Heq. destruct (Base_shape wd) as [_ [Hb | Hb]]; rewrite Heq in Hb.
    + contradiction.
    + lia.
Qed.

(** ** Further properties of the build job *)

Lemma string_app_assoc (a b c : string) :
  ((a ++ b) ++ c = a ++ (b ++ c))%string.
Proof.
  induction a as [| x a IH]; simpl; [reflexivity | now rewrite IH].
Qed.

Lemma string_app_nil_r (a : string) : (a ++ "")%string = a.
Proof.
  induction a as [| x a IH]; simpl; [reflexivity | now rewrite IH].
Qed.

Lemma string_app_inv_head (a x y : string) :
  (a ++ x)%string = (a ++ y)%string -> x = y.
Proof.
  induction a as [| c a IH]; simpl; [trivial |].
  intro H. injection H as H. now apply IH.
Qed.

Lemma string_app_inv_tail (a x y : string) :
  (x ++ a)%string = (y ++ a)%string -> x = y.
Proof.
  intro H. apply (f_equal list_ascii_of_string) in H.
  rewrite !list_ascii_of_string_app in H. apply app_inv_tail in H.
  rewrite <- (string_of_list_ascii_of_string x), <- (string_of_list_ascii_of_string y).
  now rewrite H.
Qed.

(** A string is cut at its first separator in one way only. *)
Lemma first_separator_unique (sep : ascii) (l1 l2 r1 r2 : string) :
  strings.Count l1 sep = 0 -> strings.Count l2 sep = 0 ->
  (l1 ++ String sep r1)%string = (l2 ++ String sep r2)%string ->
  l1 = l2 /\ r1 = r2.
Proof.
  revert l2. induction l1 as [| c l1 IH]; intros [| c2 l2]; simpl.
  - intros _ _ H. now injection H.
  - intros _ H2 H. injection H as Hc _. subst c2.
    rewrite Ascii.eqb_refl in H2. discriminate.
  - intros H1 _ H. injection H as Hc _. subst c.
    rewrite Ascii.eqb_refl in H1. discriminate.
  - intros H1 H2 H. injection H as Hc H. subst c2.
    destruct (Ascii.eqb c sep); [discriminate |].
    destruct (IH l2 H1 H2 H) as [-> ->]. now split.
Qed.

Lemma Build_filename_shape (config : BuildConfig) (dist : GoDist) :
  Build_filename config dist
  = (BinaryName config
     ++ String "-" (GOOS dist
     ++ String "_" (GOARCH dist
     ++ (if (GOOS dist =? "windows") || (GOOS dist =? "nt") then ".exe" else ""))))%string.
Proof.
  unfold Build_filename.
  destruct ((GOOS dist =? "windows")%string || (GOOS dist =? "nt")%string).
  - rewrite string_app_assoc. cbn [String.append]. f_equal. f_equal.
    rewrite string_app_assoc. cbn [String.append]. reflexivity.
  - now rewrite string_app_nil_r.
Qed.

(** For one configuration, two distributions whose OS names have no
    ['_'] and that differ in OS or architecture get different output
    file names. *)
Theorem Build_filename_injective (config : BuildConfig) (dist1 dist2 : GoDist) :
  strings.Count (GOOS dist1) "_" = 0 -> strings.Count (GOOS dist2) "_" = 0 ->
  Build_filename config dist1 = Build_filename config dist2 ->
  GOOS dist1 = GOOS dist2 /\ GOARCH dist1 = GOARCH dist2.
Proof.
  intros H1 H2 Heq. rewrite !Build_filename_shape in Heq.
  apply string_app_inv_head in Heq. injection Heq as Heq.
  apply (first_separator_unique _ _ _ _ _ H1 H2) in Heq as [Hos Harch].
  split; [exact Hos |].
  rewrite Hos in Harch. now apply string_app_inv_tail in Harch.
Qed.

(** ** Properties of the entry point *)

Lemma valid_target_spec (v : string) :
  valid_target v = false
  <-> v = "" \/ 2 <= strings.Count (strings.ToLower unicode_ToLower v) "/".
Proof.
  unfold valid_target, parseStringToOSARCH.
  destruct (String.eqb_spec v "") as [-> | Hne]; [cbn; split; auto |].
  rewrite Split_length.
  destruct (strings.Count (strings.ToLower unicode_ToLower v) "/") as [| [| n]];
    cbn; split; try discriminate; try (intros [H | H]; [contradiction | lia]).
  intros _. right. lia.
Qed.

Lemma targetOSARCHFunc_step (flags : TargetFlags) (v : string) :
  targetOSARCHFunc flags v
  = if valid_target v
    then (mkTargetFlags (targetOS flags ++ [fst (parseStringToOSARCH v)])
            (targetOSRaw flags ++ [v]) (stderr flags), None)
    else (mkTargetFlags (targetOS flags) (targetOSRaw flags)
            (stderr flags ++ [unable_to_parse v]), None).
Proof.
  unfold targetOSARCHFunc, valid_target.
  pose proof (parse_error_invalid v) as Herr.
  destruct (parseStringToOSARCH v) as [osarch [err |]]; [| reflexivity].
  now rewrite (Herr err eq_refl).
Qed.

Lemma flag_Parse_targets_from (values : list string) (flags : TargetFlags) :
  flag_Parse_targets flags values
  = (mkTargetFlags
       (targetOS flags
        ++ map (fun v => fst (parseStringToOSARCH v)) (filter valid_target values))
       (targetOSRaw flags ++ filter valid_target values)
       (stderr flags
        ++ map unable_to_parse (filter (fun v => negb (valid_target v)) values)),
     None).
Proof.
  revert flags. induction values as [| v values IH]; intro flags.
  - cbn. rewrite !app_nil_r. now destruct flags.
  - cbn [flag_Parse_targets filter]. rewrite targetOSARCHFunc_step.
    destruct (valid_target v); cbn [negb map]; rewrite IH;
      cbn [targetOS targetOSRaw stderr]; now rewrite <- ?app_assoc.
Qed.

(** However the [-target] values are written, the callback never
    returns an error, so [flag.Parse] goes through all of them: the
    values that parse are kept as written and in their order, beside
    their filters, and each of the others gives one line on standard
    error and is dropped.  The values dropped are the empty one and
    those with two separators or more. *)
Theorem flag_Parse_targets_spec (values : list string) :
  flag_Parse_targets (mkTargetFlags [] [] []) values
  = (mkTargetFlags
       (map (fun v => fst (parseStringToOSARCH v)) (filter valid_target values))
       (filter valid_target values)
       (map unable_to_parse (filter (fun v => negb (valid_target v)) values)),
     None)
  /\ (forall v, valid_target v = false
                <-> v = "" \/ 2 <= strings.Count (strings.ToLower unicode_ToLower v) "/").
Proof.
  split; [apply flag_Parse_targets_from | exact valid_target_spec].
Qed.

(** What holds when [main] reaches the loop over [buildDists]. *)
Lemma main_plan_Dispatch (targets : list string) (outputDir binaryName : string)
    (args : list string) (config : BuildConfig) (buildDists : list GoDist) :
  main_plan targets outputDir binaryName args = Dispatch config buildDists ->
  let targetOS :=
    map (fun v => fst (parseStringToOSARCH v)) (filter valid_target targets) in
  exists projectDir projectName,
    getProjectName projectDir = (projectName, None)
    /\ (projectDir = "." -> os_Getwd = (".", None))
    /\ getBuildOptions targetOS = (buildDists, None)
    /\ config = mkBuildConfig projectDir
                  (if (outputDir =? "")%string
                   then filepath_Join [projectDir; "build"] else outputDir)
                  projectName targetOS.
Proof.
  unfold main_plan. rewrite flag_Parse_targets_from. cbn [targetOS app].
  set (projectDir0 := if (0 <? List.length args)%nat then elem args 0 else "").
  assert (Hres : exists projectDir err,
            (if (projectDir0 =? "")%string || (projectDir0 =? ".")%string
             then os_Getwd else (projectDir0, None)) = (projectDir, err)
            /\ (err = None -> projectDir = "." -> os_Getwd = (".", None))).
  { destruct ((projectDir0 =? "")%string || (projectDir0 =? ".")%string) eqn:Hb.
    - destruct os_Getwd as [wd err]. exists wd, err.
      split; [reflexivity |]. now intros -> ->.
    - exists projectDir0, None. split; [reflexivity |].
      intros _ Hdot. apply orb_false_iff in Hb as [_ Hb].
      apply String.eqb_neq in Hb. contradiction. }
  destruct Hres as (projectDir & err & -> & Hdot).
  destruct err as [err |]; [discriminate |].
  destruct (getProjectName projectDir) as [projectName [err |]] eqn:Hname;
    [discriminate |].
  destruct (getBuildOptions _) as [dists [err |]] eqn:Hopts.
  - destruct err; discriminate.
  - intro H. injection H as <- <-.
    exists projectDir, projectName. repeat split; auto.
Qed.

(** The binaries are named after the base of the project directory
    whatever [-n] says: the value of that flag changes nothing. *)
Theorem main_plan_binary_name (targets : list string) (outputDir binaryName : string)
    (args : list string) (config : BuildConfig) (buildDists : list GoDist) :
  main_plan targets outputDir binaryName args = Dispatch config buildDists ->
  BinaryName config = filepath.Base (ProjectDir config)
  /\ forall binaryName',
       main_plan targets outputDir binaryName' args = Dispatch config buildDists.
Proof.
  intro Hplan. split; [| intro binaryName'; exact Hplan].
  apply main_plan_Dispatch in Hplan
    as (projectDir & projectName & Hname & Hdot & _ & ->).
  cbn [BinaryName ProjectDir]. revert Hname. unfold getProjectName.
  destruct (String.eqb_spec projectDir ".") as [Heq | _].
  - rewrite (Hdot Heq), Heq. intro H. now injection H.
  - intro H. now injection H.
Qed.

(** The builds that [main] starts are the fetched catalog filtered by
    the [-target] values that parse; none is outside the catalog. *)
Theorem main_plan_builds (targets : list string) (outputDir binaryName : string)
    (args : list string) (config : BuildConfig) (buildDists : list GoDist) :
  main_plan targets outputDir binaryName args = Dispatch config buildDists ->
  Targets config
  = map (fun v => fst (parseStringToOSARCH v)) (filter valid_target targets)
  /\ exists rawJson supportedDists,
       cmd_Output (Command "go" ["tool"; "dist"; "list"; "-json"]) = (rawJson, None)
       /\ json_Unmarshal rawJson = (supportedDists, None)
       /\ buildDists = getTargetBuilds (Targets config) supportedDists
       /\ (forall dist, In dist buildDists -> In dist supportedDists)
       /\ (Targets config <> [] -> buildDists <> []).
Proof.
  intro Hplan.
  apply main_plan_Dispatch in Hplan
    as (projectDir & projectName & _ & _ & Hopts & ->).
  cbn [Targets]. split; [reflexivity |].
  destruct (getBuildOptions_filtered _ _ Hopts)
    as (rawJson & supportedDists & Hout & Hjson & Hdists & Hne).
  exists rawJson, supportedDists.
  split; [exact Hout |]. split; [exact Hjson |]. split; [exact Hdists |].
  split; [| exact Hne].
  intros dist Hin. rewrite Hdists in Hin. now apply getTargetBuilds_incl in Hin.
Qed.

(** When no [-target] value parses, [main] goes on as if none had been
    given, and builds for the whole catalog. *)
Theorem main_plan_invalid_targets (targets : list string) (outputDir binaryName : string)
    (args : list string) (config : BuildConfig) (buildDists : list GoDist) :
  (forall v, In v targets ->
     v = "" \/ 2 <= strings.Count (strings.ToLower unicode_ToLower v) "/") ->
  main_plan targets outputDir binaryName args = Dispatch config buildDists ->
  Targets config = []
  /\ main_plan [] outputDir binaryName args = Dispatch config buildDists
  /\ exists rawJson,
       cmd_Output (Command "go" ["tool"; "dist"; "list"; "-json"]) = (rawJson, None)
       /\ json_Unmarshal rawJson = (buildDists, None).
Proof.
  intros Hinvalid Hplan.
  assert (Hnone : filter valid_target targets = []).
  { apply filter_none. intros v Hin. apply valid_target_spec. now apply Hinvalid. }
  assert (Hsame : main_plan [] outputDir binaryName args
                  = main_plan targets outputDir binaryName args).
  { unfold main_plan. rewrite !flag_Parse_targets_from.
    cbn [targetOS targetOSRaw app filter map]. now rewrite Hnone. }
  rewrite <- Hsame in Hplan. split; [| split; [exact Hplan |]].
  - apply main_plan_Dispatch in Hplan as (projectDir & projectName & _ & _ & _ & ->).
    reflexivity.
  - apply main_plan_Dispatch in Hplan as (projectDir & projectName & _ & _ & Hopts & _).
    cbn [filter map] in Hopts.
    destruct (getBuildOptions_filtered _ _ Hopts)
      as (rawJson & supportedDists & Hout & Hjson & Hdists & _).
    exists rawJson. split; [exact Hout |]. now rewrite Hdists.
Qed.

End Program.

(** ** The theorems at concrete inputs *)

Definition linux_x86 : GoDist := mkGoDist "linux" "x86" true true.
Definition linux_arm64 : GoDist := mkGoDist "linux" "arm64" true true.

(** The scenario of the specification: the five platforms filtered by
    ["linux"]. *)
Lemma getTargetBuilds_nonempty_witness :
  [mkOSARCH "linux" ""] <> []
  /\ getTargetBuilds [mkOSARCH "linux" ""] testingDists = [linux_x86; linux_arm64].
Proof.
  split; [discriminate |].
  rewrite (proj1 (getTargetBuilds_nonempty [mkOSARCH "linux" ""] testingDists
                    ltac:(discriminate))).
  reflexivity.
Defined.

(** A distribution selected by two filters is returned twice. *)
Example getTargetBuilds_keeps_duplicates :
  getTargetBuilds [mkOSARCH "linux" ""; mkOSARCH "linux" "x86"] testingDists
  = [linux_x86; linux_arm64; linux_x86].
Proof. reflexivity. Qed.

Example getTargetBuilds_tests :
  getTargetBuilds [mkOSARCH "windows" ""] testingDists
  = [mkGoDist "windows" "x86" true true]
  /\ getTargetBuilds [mkOSARCH "linux" "x86"] testingDists = [linux_x86]
  /\ getTargetBuilds [] testingDists = testingDists.
Proof. repeat split. Qed.

(** Only ASCII inputs are evaluated, so the Unicode lower-casing is
    never reached; the identity stands for it. *)
Lemma parseStringToOSARCH_spec_witness :
  (forall s, strings.isASCII s = false ->
     strings.Count s "/" = strings.Count s "/")
  /\ parseStringToOSARCH (fun s => s) "WINDOWS/X86"
     = (mkOSARCH "windows" "x86", None)
  /\ parseStringToOSARCH (fun s => s) "Linux"
     = (mkOSARCH (strings.ToLower (fun s => s) "Linux") "", None)
  /\ parseStringToOSARCH (fun s => s) "linux/arm/v7"
     = (mkOSARCH "" "", Some ErrInvalidOSARCH).
Proof.
  assert (Hsep : forall s, strings.isASCII s = false ->
            strings.Count s "/" = strings.Count s "/")
    by (intros s _; reflexivity).
  split; [exact Hsep |].
  destruct (parseStringToOSARCH_spec (fun s => s) Hsep) as [Hall Hex].
  split; [exact (proj1 (proj2 Hex)) |].
  split.
  - apply (proj1 (proj2 (Hall "Linux"))); [discriminate | reflexivity].
  - apply (proj2 (proj2 (proj2 (Hall "linux/arm/v7")))). vm_compute. lia.
Defined.

Lemma parseStringToOSARCH_error_zero_witness :
  parseStringToOSARCH (fun s => s) "a/b/c" = (mkOSARCH "" "", Some ErrInvalidOSARCH)
  /\ (mkOSARCH "" "" = mkOSARCH "" "" /\ ErrInvalidOSARCH = ErrInvalidOSARCH
      /\ ("a/b/c" = ""
          \/ 2 <= strings.Count (strings.ToLower (fun s => s) "a/b/c") "/")).
Proof.
  split; [reflexivity |].
  exact (parseStringToOSARCH_error_zero (fun s => s) "a/b/c"
           (mkOSARCH "" "") ErrInvalidOSARCH eq_refl).
Defined.

(** A catalog fetch that answers with the five platforms of the tests. *)
Definition test_Output (cmd : Cmd) : string * option error := ("[]", None).
Definition test_Unmarshal (rawJson : string) : list GoDist * option error :=
  (testingDists, None).

Lemma getBuildOptions_spec_witness :
  getBuildOptions test_Output test_Unmarshal [mkOSARCH "plan9" ""]
  = ([], Some ErrUnsupportedTargetOSARCH)
  /\ getBuildOptions test_Output test_Unmarshal [mkOSARCH "linux" "arm64"]
     = ([linux_arm64], None)
  /\ getBuildOptions test_Output test_Unmarshal [] = (testingDists, None).
Proof.
  pose proof (getBuildOptions_spec test_Output test_Unmarshal
                [mkOSARCH "plan9" ""] "[]" testingDists eq_refl eq_refl) as Hnone.
  pose proof (getBuildOptions_spec test_Output test_Unmarshal
                [mkOSARCH "linux" "arm64"] "[]" testingDists eq_refl eq_refl) as Hsome.
  pose proof (getBuildOptions_spec test_Output test_Unmarshal
                [] "[]" testingDists eq_refl eq_refl) as Hall.
  split; [| split].
  - apply (proj1 Hnone); [discriminate | reflexivity].
  - apply (proj1 (proj2 Hsome)); [discriminate | discriminate].
  - apply (proj2 (proj2 Hall)). reflexivity.
Defined.

Definition app_config : BuildConfig := mkBuildConfig "." "./build" "app" [].

Lemma Build_output_path_witness :
  Build_filename app_config (mkGoDist "windows" "x86" true true) = "app-windows_x86.exe"
  /\ Build_filename app_config (mkGoDist "nt" "x86" true true) = "app-nt_x86.exe"
  /\ Build_filename app_config linux_arm64 = "app-linux_arm64".
Proof.
  pose proof (Build_output_path (String.concat "/") [] test_Output) as [Hall _].
  split; [| split].
  - apply (proj1 (Hall app_config (mkGoDist "windows" "x86" true true))).
    left. reflexivity.
  - apply (proj1 (Hall app_config (mkGoDist "nt" "x86" true true))).
    right. reflexivity.
  - apply (proj1 (proj2 (Hall app_config linux_arm64))).
    intros [H | H]; discriminate H.
Defined.

Lemma getProjectName_base_witness :
  getProjectName ("/home/u/projects/tool", None) "/srv/code/myproject/"
  = ("myproject", None)
  /\ getProjectName ("/home/u/projects/tool", None) "myproject" = ("myproject", None)
  /\ getProjectName ("/home/u/projects/tool", None) "." = ("tool", None)
  /\ getProjectName ("/home/u/projects/tool", None) "//" = ("/", None).
Proof.
  pose proof (getProjectName_base ("/home/u/projects/tool", None))
    as (Hname & Hslashes & _).
  split; [| split; [| split]].
  - apply (proj1 (Hname "/srv/code/" "myproject" "/" ltac:(discriminate)
                    eq_refl eq_refl (or_intror (ex_intro _ "/srv/code" eq_refl)))).
    discriminate.
  - apply (proj1 (Hname "" "myproject" "" ltac:(discriminate)
                    eq_refl eq_refl (or_introl eq_refl))).
    discriminate.
  - apply (proj2 (Hname "/home/u/projects/" "tool" "" ltac:(discriminate)
                    eq_refl eq_refl (or_intror (ex_intro _ "/home/u/projects" eq_refl)))).
    reflexivity.
  - apply (proj1 (Hslashes "//" ltac:(discriminate) eq_refl)).
Defined.

Lemma getProjectName_no_error_witness :
  getProjectName ("", Some (ExternalError "getwd: no such file or directory")) "./"
  = (filepath.Base "./", None)
  /\ ("." = "."
      /\ snd ("", Some (ExternalError "getwd: no such file or directory"))
         = Some (ExternalError "getwd: no such file or directory")
      /\ "" = "").
Proof.
  pose proof (getProjectName_no_error
                ("", Some (ExternalError "getwd: no such file or directory")))
    as (Hother & Herr & _).
  split.
  - apply Hother. discriminate.
  - apply (Herr "." "" (ExternalError "getwd: no such file or directory")).
    reflexivity.
Defined.

(** ** The further properties at concrete inputs *)

Definition windows_x86 : GoDist := mkGoDist "windows" "x86" true true.

Lemma getTargetBuilds_In_witness :
  In linux_arm64 (getTargetBuilds [mkOSARCH "windows" ""; mkOSARCH "linux" "arm64"]
                    testingDists).
Proof.
  apply (getTargetBuilds_In [mkOSARCH "windows" ""; mkOSARCH "linux" "arm64"]
           testingDists linux_arm64); [discriminate |].
  split; [simpl; auto 6 |].
  exists (mkOSARCH "linux" "arm64"). split; [simpl; auto | reflexivity].
Defined.

Lemma getTargetBuilds_app_witness :
  getTargetBuilds ([mkOSARCH "linux" ""] ++ [mkOSARCH "linux" ""]) testingDists
  = [linux_x86; linux_arm64] ++ [linux_x86; linux_arm64].
Proof.
  rewrite (getTargetBuilds_app [mkOSARCH "linux" ""] [mkOSARCH "linux" ""]
             testingDists); [reflexivity | discriminate | discriminate].
Defined.

Lemma getTargetBuilds_length_witness :
  List.length (getTargetBuilds [mkOSARCH "linux" ""; mkOSARCH "bsd" ""] testingDists)
  <= 2 * 5.
Proof.
  apply (getTargetBuilds_length [mkOSARCH "linux" ""; mkOSARCH "bsd" ""] testingDists).
  discriminate.
Defined.

Lemma getTargetBuilds_refine_witness :
  getTargetBuilds [mkOSARCH "linux" "arm64"] testingDists
  = filter (fun dist => ("arm64" =? GOARCH dist)%string) [linux_x86; linux_arm64].
Proof.
  apply (getTargetBuilds_refine "linux" "arm64" testingDists). discriminate.
Defined.

Lemma testingDists_NoDup :
  NoDup (map (fun dist => (GOOS dist, GOARCH dist)) testingDists).
Proof.
  repeat constructor; simpl; intuition discriminate.
Qed.

Lemma getTargetBuilds_one_per_filter_witness :
  List.length (getTargetBuilds [mkOSARCH "linux" "arm64"; mkOSARCH "plan9" "amd64"]
                 testingDists) <= 2.
Proof.
  apply (getTargetBuilds_one_per_filter
           [mkOSARCH "linux" "arm64"; mkOSARCH "plan9" "amd64"] testingDists).
  - discriminate.
  - repeat constructor; discriminate.
  - exact testingDists_NoDup.
Defined.

(** A catalog fetch that fails. *)
Definition failing_Output (cmd : Cmd) : string * option error :=
  ("", Some (ExternalError "exit status 2")).

Lemma getBuildOptions_error_witness :
  getBuildOptions failing_Output test_Unmarshal [mkOSARCH "linux" ""]
  = ([], Some (Errorf_w "dist: " (ExternalError "exit status 2")))
  /\ ([] : list GoDist) = [].
Proof.
  split; [reflexivity |].
  exact (proj1 (getBuildOptions_error failing_Output test_Unmarshal
                  [mkOSARCH "linux" ""] []
                  (Errorf_w "dist: " (ExternalError "exit status 2")) eq_refl)).
Defined.

Lemma getBuildOptions_success_witness :
  exists rawJson supportedDists,
    test_Output (Command "go" ["tool"; "dist"; "list"; "-json"]) = (rawJson, None)
    /\ test_Unmarshal rawJson = (supportedDists, None)
    /\ [linux_arm64] = getTargetBuilds [mkOSARCH "linux" "arm64"] supportedDists
    /\ (forall dist, In dist [linux_arm64] -> In dist supportedDists)
    /\ ([mkOSARCH "linux" "arm64"] <> [] -> [linux_arm64] <> []).
Proof.
  exact (getBuildOptions_success test_Output test_Unmarshal
           [mkOSARCH "linux" "arm64"] [linux_arm64] eq_refl).
Defined.

Lemma parseStringToOSARCH_fields_witness :
  strings.Count "linux" "/" = 0 /\ strings.Count "arm64" "/" = 0.
Proof.
  exact (parseStringToOSARCH_fields (fun s => s) "Linux/ARM64"
           (mkOSARCH "linux" "arm64") eq_refl).
Defined.

Lemma parseStringToOSARCH_case_insensitive_witness :
  parseStringToOSARCH (fun s => s) "Linux/ARM64"
  = parseStringToOSARCH (fun s => s) "LINUX/arm64".
Proof.
  exact (parseStringToOSARCH_case_insensitive (fun s => s)
           "Linux/ARM64" "LINUX/arm64" eq_refl eq_refl eq_refl).
Defined.

Lemma parseStringToOSARCH_lower_witness :
  strings.hasUpper "linux" = false /\ strings.hasUpper "arm64" = false.
Proof.
  exact (parseStringToOSARCH_lower (fun s => s) "Linux/ARM64"
           (mkOSARCH "linux" "arm64") eq_refl eq_refl).
Defined.

Lemma parseStringToOSARCH_selects_witness :
  exists osarch,
    parseStringToOSARCH (fun s => s) "Linux/ARM64" = (osarch, None)
    /\ In linux_arm64 (getTargetBuilds [osarch] testingDists).
Proof.
  apply (parseStringToOSARCH_selects (fun s => s) "Linux/ARM64" linux_arm64
           testingDists); try reflexivity.
  - discriminate.
  - right. reflexivity.
  - simpl. auto 6.
Defined.

Lemma getProjectName_name_witness :
  "app" <> "" /\ ("app" = "/" \/ strings.Count "app" "/" = 0).
Proof.
  exact (getProjectName_name ("/home/u/tool", None) "/srv/app/" "app" eq_refl).
Defined.

Lemma getProjectName_trailing_separator_witness :
  getProjectName ("/home/u/tool", None) ("/srv/app" ++ "/")
  = getProjectName ("/home/u/tool", None) "/srv/app".
Proof.
  apply (proj1 (getProjectName_trailing_separator ("/home/u/tool", None)));
    discriminate.
Defined.

Lemma getProjectName_dot_differs_witness :
  exists name,
    getProjectName ("/home/u/tool", None) "." = (name, None)
    /\ name <> "/home/u/tool".
Proof.
  apply (getProjectName_dot_differs ("/home/u/tool", None) "/home/u/tool").
  - reflexivity.
  - vm_compute. lia.
  - discriminate.
Defined.

Lemma Build_filename_injective_witness :
  GOOS (mkGoDist "linux" "arm64" true true) = GOOS (mkGoDist "linux" "arm64" false false)
  /\ GOARCH (mkGoDist "linux" "arm64" true true)
     = GOARCH (mkGoDist "linux" "arm64" false false).
Proof.
  apply (Build_filename_injective app_config); reflexivity.
Defined.

(** Without the condition on the OS names two distributions can share
    an output file. *)
Example Build_filename_collision :
  Build_filename app_config (mkGoDist "a_b" "c" true true)
  = Build_filename app_config (mkGoDist "a" "b_c" true true).
Proof. reflexivity. Qed.

(** A stand-in for [filepath.Join] that does not clean its result. *)
Definition test_Join (elem : list string) : string := String.concat "/" elem.

Definition test_main : list string -> string -> string -> list string -> Outcome :=
  main_plan (fun s => s) test_Join ("/home/u/tool", None) test_Output test_Unmarshal.

Definition tool_config : BuildConfig :=
  mkBuildConfig "/home/u/tool" "/home/u/tool/build" "tool" [mkOSARCH "linux" "arm64"].

Lemma main_plan_binary_name_witness :
  test_main ["Linux/ARM64"; "a/b/c"] "" "custom" [] = Dispatch tool_config [linux_arm64]
  /\ BinaryName tool_config = filepath.Base (ProjectDir tool_config)
  /\ test_main ["Linux/ARM64"; "a/b/c"] "" "other" [] = Dispatch tool_config [linux_arm64].
Proof.
  split; [reflexivity |].
  pose proof (main_plan_binary_name (fun s => s) test_Join ("/home/u/tool", None)
                test_Output test_Unmarshal ["Linux/ARM64"; "a/b/c"] "" "custom" []
                tool_config [linux_arm64] eq_refl) as [Hname Hflag].
  split; [exact Hname | exact (Hflag "other")].
Defined.

Lemma main_plan_builds_witness :
  Targets tool_config
  = map (fun v => fst (parseStringToOSARCH (fun s => s) v))
        (filter (valid_target (fun s => s)) ["Linux/ARM64"; "a/b/c"])
  /\ exists rawJson supportedDists,
       test_Output (Command "go" ["tool"; "dist"; "list"; "-json"]) = (rawJson, None)
       /\ test_Unmarshal rawJson = (supportedDists, None)
       /\ [linux_arm64] = getTargetBuilds (Targets tool_config) supportedDists
       /\ (forall dist, In dist [linux_arm64] -> In dist supportedDists)
       /\ (Targets tool_config <> [] -> [linux_arm64] <> []).
Proof.
  exact (main_plan_builds (fun s => s) test_Join ("/home/u/tool", None)
           test_Output test_Unmarshal ["Linux/ARM64"; "a/b/c"] "" "custom" []
           tool_config [linux_arm64] eq_refl).
Defined.

Definition app_out_config : BuildConfig := mkBuildConfig "/srv/app/" "out" "app" [].

Lemma main_plan_invalid_targets_witness :
  test_main ["a/b/c"; ""] "out" "" ["/srv/app/"] = Dispatch app_out_config testingDists
  /\ Targets app_out_config = []
  /\ test_main [] "out" "" ["/srv/app/"] = Dispatch app_out_config testingDists
  /\ exists rawJson,
       test_Output (Command "go" ["tool"; "dist"; "list"; "-json"]) = (rawJson, None)
       /\ test_Unmarshal rawJson = (testingDists, None).
Proof.
  split; [reflexivity |].
  apply (main_plan_invalid_targets (fun s => s) test_Join ("/home/u/tool", None)
           test_Output test_Unmarshal ["a/b/c"; ""] "out" "" ["/srv/app/"]
           app_out_config testingDists); [| reflexivity].
  intros v [<- | [<- | []]].
  - right. vm_compute. lia.
  - left. reflexivity.
Defined.
